(** * Celcoin BaaS tester: a shallow embedding of [test._cellcoin_endpoints.py]

    The script is a sequential HTTP test harness.  Its state is the
    [CelcoinTester] object (configuration, stored access token, test
    session); its environment is the remote API, the wall clock and the
    UUID generator.  The embedding threads the tester through a state and
    exception monad and reads the environment from oracles, so every run of
    the script is a function of what the environment answers.

    Python strings are modelled as Rocq byte strings; the case conversions
    below are the ASCII ones.  Console output ([print], [log_*]) is not part
    of the state and is left out. *)

From Stdlib Require Import ZArith List String Ascii Bool Lia.
From Stdlib Require Import PrimFloat Uint63 SpecFloat FloatOps DecimalString.
Import ListNotations.
Open Scope list_scope.
Open Scope string_scope.

(** ** Python strings *)

Module PyStr.

Definition upper_ascii (c : ascii) : ascii :=
  let n := nat_of_ascii c in
  if andb (Nat.leb 97 n) (Nat.leb n 122) then ascii_of_nat (n - 32) else c.

Definition lower_ascii (c : ascii) : ascii :=
  let n := nat_of_ascii c in
  if andb (Nat.leb 65 n) (Nat.leb n 90) then ascii_of_nat (n + 32) else c.

Fixpoint map_chars (f : ascii -> ascii) (s : string) : string :=
  match s with
  | EmptyString => EmptyString
  | String c s' => String (f c) (map_chars f s')
  end.

(** [s.upper()] and [s.lower()], on ASCII letters; a byte outside ASCII
    is left as it is, where Python maps some code points. *)
Definition upper : string -> string := map_chars upper_ascii.
Definition lower : string -> string := map_chars lower_ascii.

(** [s.replace(old, new)]: every non-overlapping occurrence, left to
    right; an empty [old] matches before every character and at the end. *)
Fixpoint replace_from (old new : string) (skip : nat) (s : string) : string :=
  match s with
  | EmptyString =>
      match old with EmptyString => new | _ => EmptyString end
  | String c s' =>
      match skip with
      | S k => replace_from old new k s'
      | O =>
          match old with
          | EmptyString => new ++ String c (replace_from old new O s')
          | String _ old' =>
              if String.prefix old s
              then new ++ replace_from old new (String.length old') s'
              else String c (replace_from old new O s')
          end
      end
  end.

Definition replace (s old new : string) : string := replace_from old new O s.

(** [s[:n]], counted in bytes: the same as Python's on ASCII strings. *)
Definition take (n : nat) (s : string) : string := String.substring 0 n s.

(** [needle in hay]. *)
Fixpoint contains (needle hay : string) : bool :=
  if String.prefix needle hay then true
  else match hay with
       | EmptyString => false
       | String _ hay' => contains needle hay'
       end.

(** [str(n)] for an [int]. *)
Definition of_Z (z : Z) : string := NilZero.string_of_int (Z.to_int z).
Definition of_nat (n : nat) : string := of_Z (Z.of_nat n).

(** Truth value of a string: empty is false. *)
Definition truthy (s : string) : bool :=
  match s with EmptyString => false | _ => true end.

End PyStr.

(** ** Python values

    The values that travel through the script as payloads, decoded JSON
    bodies and the stored token.  [PNone] is Python's [None] (and JSON
    [null]); a [PDict] keeps insertion order, and a lookup finds the entry
    of the key. *)

#[warnings="-register-all"]
Inductive pyval : Type :=
| PNone
| PBool (b : bool)
| PInt (z : Z)
| PFloat (f : float)
| PStr (s : string)
| PList (l : list pyval)
| PDict (kv : list (string * pyval)).

(** [bool(v)]. *)
Definition truthy (v : pyval) : bool :=
  match v with
  | PNone => false
  | PBool b => b
  | PInt z => negb (Z.eqb z 0)
  | PFloat f => negb (PrimFloat.eqb f 0%float)
  | PStr s => PyStr.truthy s
  | PList l => match l with [] => false | _ => true end
  | PDict kv => match kv with [] => false | _ => true end
  end.

Fixpoint dict_lookup {A : Type} (k : string) (kv : list (string * A)) : option A :=
  match kv with
  | [] => None
  | (k', v) :: kv' => if String.eqb k k' then Some v else dict_lookup k kv'
  end.

(** Exceptions: the class and the text [str(e)] gives. *)
Inductive exc_class : Type :=
| ValueError | TypeError | AttributeError | ZeroDivisionError
| JSONDecodeError | RequestException.

Record pyexc : Type := Exc { exc_kind : exc_class; exc_str : string }.

(** A computation that returns or raises. *)
Definition pyres (A : Type) : Type := (pyexc + A)%type.

Definition res_bind {A B : Type} (r : pyres A) (k : A -> pyres B) : pyres B :=
  match r with
  | inl e => inl e
  | inr a => k a
  end.

(** [v.get(k)]: only a dict has the method; the default is [None]. *)
Definition py_get (v : pyval) (k : string) : pyres pyval :=
  match v with
  | PDict kv =>
      inr (match dict_lookup k kv with Some x => x | None => PNone end)
  | _ => inl (Exc AttributeError "object has no attribute 'get'")
  end.

(** ** The Python runtime the script calls into

    Formatting and date arithmetic come from the interpreter and its
    standard library; the script only calls them. *)

Class PyRuntime : Type := {
  datetime : Type;
  (** [d.strftime(fmt)] *)
  strftime : datetime -> string -> string;
  (** [(a - b).total_seconds()] *)
  total_seconds : datetime -> datetime -> float;
  (** [format(x, ".nf")] for a float (or the int 0) *)
  format_f : nat -> float -> string;
  (** [json.dumps(v, indent=2, ensure_ascii=False)] *)
  json_dumps : pyval -> string;
  (** [repr(v)], which is also [str(v)] for every value but a string *)
  py_repr : pyval -> string
}.

(** What an f-string writes for [{v}]. *)
Definition py_str {RT : PyRuntime} (v : pyval) : string :=
  match v with
  | PStr s => s
  | _ => py_repr v
  end.

(** ** Data model *)

Section Harness.

Context {RT : PyRuntime}.

Definition header_dict : Type := list (string * string).

(** [class TestResult]: one executed call. *)
Record TestResult : Type := mkTestResult {
  test_name : string;
  endpoint : string;
  method : string;
  timestamp : datetime;
  request_payload : pyval;
  response_status : option Z;
  response_body : pyval;
  response_headers : option header_dict;
  execution_time : option float;
  success : bool;
  error_message : option string
}.

(** [TestResult.__init__]; [ts] is what [datetime.now()] answered. *)
Definition TestResult_init (name ep m : string) (ts : datetime) : TestResult :=
  mkTestResult name ep m ts PNone None PNone None None false None.

Definition set_request_payload (r : TestResult) (v : pyval) : TestResult :=
  mkTestResult (test_name r) (endpoint r) (method r) (timestamp r) v
    (response_status r) (response_body r) (response_headers r)
    (execution_time r) (success r) (error_message r).

Definition set_response_status (r : TestResult) (v : option Z) : TestResult :=
  mkTestResult (test_name r) (endpoint r) (method r) (timestamp r)
    (request_payload r) v (response_body r) (response_headers r)
    (execution_time r) (success r) (error_message r).

Definition set_response_body (r : TestResult) (v : pyval) : TestResult :=
  mkTestResult (test_name r) (endpoint r) (method r) (timestamp r)
    (request_payload r) (response_status r) v (response_headers r)
    (execution_time r) (success r) (error_message r).

Definition set_response_headers (r : TestResult) (v : option header_dict) : TestResult :=
  mkTestResult (test_name r) (endpoint r) (method r) (timestamp r)
    (request_payload r) (response_status r) (response_body r) v
    (execution_time r) (success r) (error_message r).

Definition set_execution_time (r : TestResult) (v : option float) : TestResult :=
  mkTestResult (test_name r) (endpoint r) (method r) (timestamp r)
    (request_payload r) (response_status r) (response_body r)
    (response_headers r) v (success r) (error_message r).

Definition set_success (r : TestResult) (v : bool) : TestResult :=
  mkTestResult (test_name r) (endpoint r) (method r) (timestamp r)
    (request_payload r) (response_status r) (response_body r)
    (response_headers r) (execution_time r) v (error_message r).

Definition set_error_message (r : TestResult) (v : option string) : TestResult :=
  mkTestResult (test_name r) (endpoint r) (method r) (timestamp r)
    (request_payload r) (response_status r) (response_body r)
    (response_headers r) (execution_time r) (success r) v.

(** [class TestSession]. *)
Record TestSession : Type := mkTestSession {
  session_id : string;
  start_time : datetime;
  results : list TestResult;
  end_time : option datetime
}.

(** [TestSession.__init__]: [uuid_str] is [str(uuid.uuid4())]. *)
Definition TestSession_init (uuid_str : string) (now : datetime) : TestSession :=
  mkTestSession (PyStr.take 8 uuid_str) now [] None.

Definition add_result (s : TestSession) (r : TestResult) : TestSession :=
  mkTestSession (session_id s) (start_time s) (results s ++ [r])%list (end_time s).

(** [finish]: [now] is what [datetime.now()] answered. *)
Definition finish (s : TestSession) (now : datetime) : TestSession :=
  mkTestSession (session_id s) (start_time s) (results s) (Some now).

Definition get_duration (s : TestSession) : string :=
  match end_time s with
  | Some e => format_f 2 (total_seconds e (start_time s)) ++ "s"
  | None => "Em andamento"
  end.

(** [class CelcoinConfig]: the three class attributes read from the
    process environment ([None] when a variable is not set). *)
Record CelcoinConfig : Type := mkConfig {
  BASE_URL : string;
  CLIENT_ID : option string;
  CLIENT_SECRET : option string
}.

Definition opt_truthy (o : option string) : bool :=
  match o with Some s => PyStr.truthy s | None => false end.

Definition opt_str (o : option string) : pyval :=
  match o with Some s => PStr s | None => PNone end.

Definition CelcoinConfig_init (c : CelcoinConfig) : pyres CelcoinConfig :=
  if orb (negb (opt_truthy (CLIENT_ID c))) (negb (opt_truthy (CLIENT_SECRET c)))
  then inl (Exc ValueError
              "CLIENT_ID e CLIENT_SECRET devem ser configurados no arquivo .env")
  else inr c.

(** [class CelcoinTester]: the fields of [self]. *)
Record CelcoinTester : Type := mkTester {
  config : CelcoinConfig;
  access_token : pyval;
  token_expires_at : option datetime;
  session : TestSession
}.

(** ** The environment *)

Inductive verb : Type := POST | GET | PUT | DELETE.

(** One call of [requests.post/get/put/delete] with the keyword arguments
    the script passes ([None] where it passes none). *)
Record request : Type := mkRequest {
  rq_verb : verb;
  rq_url : string;
  rq_headers : option header_dict;
  rq_json : pyval;
  rq_params : pyval;
  rq_data : pyval
}.

(** The [requests.Response] fields the script reads; [resp_json] is what
    [response.json()] returns, [None] when it raises. *)
Record response : Type := mkResponse {
  status_code : Z;
  resp_headers : header_dict;
  text : string;
  resp_json : option pyval
}.

Inductive outcome : Type :=
| Responded (r : response)
| Failed (e : pyexc).

(** What the outside world answers: the n-th HTTP call, the n-th reading
    of [datetime.now()], of [time.time()] and of [uuid.uuid4().hex]. *)
Record Env : Type := mkEnv {
  http : nat -> request -> outcome;
  datetime_now : nat -> datetime;
  time_time : nat -> float;
  uuid4_hex : nat -> string
}.

(** The state a run threads: [self], the requests sent so far, how often
    each clock and the UUID generator were read, and the files written. *)
Record World : Type := mkWorld {
  self : CelcoinTester;
  sent : list request;
  n_now : nat;
  n_time : nat;
  n_uuid : nat;
  files : list (string * string)
}.

Definition with_self (w : World) (t : CelcoinTester) : World :=
  mkWorld t (sent w) (n_now w) (n_time w) (n_uuid w) (files w).

Definition with_session (t : CelcoinTester) (s : TestSession) : CelcoinTester :=
  mkTester (config t) (access_token t) (token_expires_at t) s.

Definition with_access_token (t : CelcoinTester) (v : pyval) : CelcoinTester :=
  mkTester (config t) v (token_expires_at t) (session t).

(** ** The monad of the script: state and exceptions

    A raise keeps the state reached so far, as in Python. *)

Definition Py (A : Type) : Type := World -> pyres A * World.

Definition ret {A : Type} (a : A) : Py A := fun w => (inr a, w).

Definition bind {A B : Type} (c : Py A) (k : A -> Py B) : Py B :=
  fun w =>
    match c w with
    | (inr a, w') => k a w'
    | (inl e, w') => (inl e, w')
    end.

Definition raise {A : Type} (e : pyexc) : Py A := fun w => (inl e, w).

(** [try: c / except Exception as e: h e]. *)
Definition try_except {A : Type} (c : Py A) (h : pyexc -> Py A) : Py A :=
  fun w =>
    match c w with
    | (inr a, w') => (inr a, w')
    | (inl e, w') => h e w'
    end.

Definition lift {A : Type} (r : pyres A) : Py A := fun w => (r, w).

Definition gets {A : Type} (f : CelcoinTester -> A) : Py A :=
  fun w => (inr (f (self w)), w).

Definition modify (f : CelcoinTester -> CelcoinTester) : Py unit :=
  fun w => (inr tt, with_self w (f (self w))).

Notation "x <- c ;; k" := (bind c (fun x => k))
  (at level 61, c at next level, right associativity).
Notation "c ;;; k" := (bind c (fun _ => k))
  (at level 61, right associativity).

Variable env : Env.

(** [datetime.now()], [time.time()], [uuid.uuid4().hex]. *)
Definition now : Py datetime :=
  fun w => (inr (datetime_now env (n_now w)),
            mkWorld (self w) (sent w) (S (n_now w)) (n_time w) (n_uuid w) (files w)).

Definition time : Py float :=
  fun w => (inr (time_time env (n_time w)),
            mkWorld (self w) (sent w) (n_now w) (S (n_time w)) (n_uuid w) (files w)).

Definition uuid4 : Py string :=
  fun w => (inr (uuid4_hex env (n_uuid w)),
            mkWorld (self w) (sent w) (n_now w) (n_time w) (S (n_uuid w)) (files w)).

(** One call into [requests]: the request goes out, then the library
    returns a response or raises. *)
Definition send (rq : request) : Py response :=
  fun w =>
    let w' := mkWorld (self w) (sent w ++ [rq])%list (n_now w) (n_time w) (n_uuid w) (files w) in
    match http env (List.length (sent w)) rq with
    | Responded r => (inr r, w')
    | Failed e => (inl e, w')
    end.

(** [response.json()]. *)
Definition response_json (r : response) : Py pyval :=
  match resp_json r with
  | Some v => ret v
  | None => raise (Exc JSONDecodeError "Expecting value")
  end.

Definition session_add_result (r : TestResult) : Py unit :=
  modify (fun t => with_session t (add_result (session t) r)).

(** ** HTTP Executor *)

(** [get_headers], on the stored token. *)
Definition get_headers (token : pyval) : header_dict :=
  [("Authorization", "Bearer " ++ py_str token);
   ("Content-Type", "application/json")].

Definition success_status (status : Z) : bool :=
  existsb (Z.eqb status) [200; 201; 202]%Z.

Definition _make_request (method url : string) (payload params : pyval)
           (test_name : string) : Py TestResult :=
  base <- gets (fun t => BASE_URL (config t)) ;;
  ts <- now ;;
  let result := TestResult_init test_name (PyStr.replace url base EmptyString) method ts in
  let result := set_request_payload result payload in
  start_time <- time ;;
  result <-
    try_except
      (token <- gets access_token ;;
       let headers :=
         if truthy token then get_headers token
         else [("Content-Type", "application/json")] in
       response <-
         (if PyStr.upper method =? "POST" then
            send (mkRequest POST url (Some headers) payload PNone PNone)
          else if PyStr.upper method =? "GET" then
            send (mkRequest GET url (Some headers) PNone params PNone)
          else if PyStr.upper method =? "PUT" then
            send (mkRequest PUT url (Some headers) payload PNone PNone)
          else if PyStr.upper method =? "DELETE" then
            send (mkRequest DELETE url (Some headers) PNone PNone PNone)
          else
            raise (Exc ValueError ("Método HTTP não suportado: " ++ method))) ;;
       stop <- time ;;
       let result := set_execution_time result (Some (stop - start_time)%float) in
       let result := set_response_status result (Some (status_code response)) in
       let result := set_response_headers result (Some (resp_headers response)) in
       let result :=
         set_response_body result
           (match resp_json response with
            | Some v => v
            | None => PDict [("raw_response", PStr (text response))]
            end) in
       let result := set_success result (success_status (status_code response)) in
       let result :=
         if negb (success result)
         then set_error_message result
                (Some ("HTTP " ++ PyStr.of_Z (status_code response) ++ ": "
                         ++ text response))
         else result in
       ret result)
      (fun e =>
         stop <- time ;;
         let result := set_execution_time result (Some (stop - start_time)%float) in
         let result := set_success result false in
         let result := set_error_message result (Some (exc_str e)) in
         ret result) ;;
  session_add_result result ;;;
  ret result.

(** ** Authenticate *)

Definition authenticate : Py bool :=
  try_except
    (cfg <- gets config ;;
     let url := BASE_URL cfg ++ "/v5/token" in
     let data := PDict [("client_id", opt_str (CLIENT_ID cfg));
                        ("client_secret", opt_str (CLIENT_SECRET cfg));
                        ("grant_type", PStr "client_credentials")] in
     response <- send (mkRequest POST url None PNone PNone data) ;;
     ts <- now ;;
     let result := TestResult_init "Autenticação OAuth2" "/v5/token" "POST" ts in
     let result :=
       set_request_payload result
         (PDict [("client_id", PStr "***");
                 ("grant_type", PStr "client_credentials")]) in
     let result := set_response_status result (Some (status_code response)) in
     let result := set_response_headers result (Some (resp_headers response)) in
     if (status_code response =? 200)%Z then
       token_data <- response_json response ;;
       expires_in <- lift (py_get token_data "expires_in") ;;
       let result :=
         set_response_body result
           (PDict [("access_token", PStr "***"); ("expires_in", expires_in)]) in
       let result := set_success result true in
       token <- lift (py_get token_data "access_token") ;;
       modify (fun t => with_access_token t token) ;;;
       session_add_result result ;;;
       ret true
     else
       body <- (if PyStr.truthy (text response)
                then response_json response
                else ret (PDict [])) ;;
       let result := set_response_body result body in
       let result := set_success result false in
       let result :=
         set_error_message result
           (Some ("Erro na autenticação: " ++ PyStr.of_Z (status_code response))) in
       session_add_result result ;;;
       ret false)
    (fun _ => ret false).

(** ** Domain operations *)

(** [return result.response_body] on success, [None] otherwise. *)
Definition body_or_none (result : TestResult) : pyval :=
  if success result then response_body result else PNone.

Definition test_pix_dict_lookup (pix_key key_type : string) : Py pyval :=
  base <- gets (fun t => BASE_URL (config t)) ;;
  let url := base ++ "/pix/v1/dict/v2/key" in
  let payload := PDict [("key", PStr pix_key); ("keyType", PStr key_type)] in
  result <- _make_request "POST" url payload PNone ("DICT Lookup - " ++ key_type) ;;
  ret (body_or_none result).

Definition test_pix_payment (amount : float) (pix_key key_type client_code
                             description : string) : Py pyval :=
  base <- gets (fun t => BASE_URL (config t)) ;;
  let url := base ++ "/pix/v1/payment" in
  let payload :=
    PDict [("amount", PFloat amount);
           ("receiver", PDict [("key", PStr pix_key); ("keyType", PStr key_type)]);
           ("clientCode", PStr client_code);
           ("description", PStr description);
           ("urgency", PStr "HIGH");
           ("initiationType", PStr "MANUAL")] in
  result <- _make_request "POST" url payload PNone
              ("Pagamento PIX - R$ " ++ format_f 2 amount) ;;
  ret (body_or_none result).

Definition test_pix_status (transaction_id : string) : Py pyval :=
  base <- gets (fun t => BASE_URL (config t)) ;;
  let url := base ++ "/pix/v1/payment/status" in
  let params := PDict [("transactionId", PStr transaction_id)] in
  result <- _make_request "GET" url PNone params
              ("Status PIX - " ++ PyStr.take 8 transaction_id ++ "...") ;;
  ret (body_or_none result).

Definition test_ted_transfer (amount : float) (bank_code agency account
                              recipient_name recipient_doc client_code : string)
  : Py pyval :=
  base <- gets (fun t => BASE_URL (config t)) ;;
  let url := base ++ "/v5/transactions/banktransfer" in
  let payload :=
    PDict [("amount", PFloat amount);
           ("clientCode", PStr client_code);
           ("bank", PDict [("bankCode", PStr bank_code);
                           ("agency", PStr agency);
                           ("account", PStr account)]);
           ("recipient", PDict [("name", PStr recipient_name);
                                ("document", PStr recipient_doc)]);
           ("purpose", PStr "01");
           ("description", PStr "Teste TED via API")] in
  result <- _make_request "POST" url payload PNone
              ("TED Transfer - R$ " ++ format_f 2 amount) ;;
  ret (body_or_none result).

Definition test_internal_transfer (amount : float) (debit_account credit_account
                                   client_code description : string) : Py pyval :=
  base <- gets (fun t => BASE_URL (config t)) ;;
  let url :=
    base ++ "/baas-wallet-transactions-webservice/v1/wallet/internal/transfer" in
  let payload :=
    PDict [("amount", PFloat amount);
           ("clientRequestId", PStr client_code);
           ("debitParty", PDict [("account", PStr debit_account)]);
           ("creditParty", PDict [("account", PStr credit_account)]);
           ("description", PStr description)] in
  result <- _make_request "POST" url payload PNone
              ("Transferência Interna - R$ " ++ format_f 2 amount) ;;
  ret (body_or_none result).

(** ** Pipeline mode *)

Definition run_pipeline_test : Py unit :=
  ok <- authenticate ;;
  if negb ok then ret tt
  else
    let pix_key := "test@example.com" in
    test_pix_dict_lookup pix_key "EMAIL" ;;;
    u1 <- uuid4 ;;
    let client_code := "TEST_" ++ PyStr.take 8 u1 in
    test_pix_payment 10.5%float pix_key "EMAIL" client_code "Teste automatizado" ;;;
    test_pix_status "123456789" ;;;
    u2 <- uuid4 ;;
    let ted_client_code := "TED_" ++ PyStr.take 8 u2 in
    test_ted_transfer 100%float "001" "1234" "12345-6" "João Silva"
      "12345678901" ted_client_code ;;;
    ret tt.

(** ** Report Generator *)

Definition nl : string := String (ascii_of_nat 10) EmptyString.

(** The lines of a triple-quoted block, each closed by a newline. *)
Definition unlines (l : list string) : string :=
  fold_right (fun x acc => x ++ nl ++ acc) EmptyString l.

Notation "x <~ c ;; k" := (res_bind c (fun x => k))
  (at level 61, c at next level, right associativity).

(** [float(n)] for a length; exact below 2^53. *)
Definition float_of_nat (n : nat) : float :=
  PrimFloat.of_uint63 (Uint63.of_Z (Z.of_nat n)).

Definition division_by_zero : pyexc := Exc ZeroDivisionError "division by zero".

(** [a / b] on two lengths. *)
Definition int_truediv (a b : nat) : pyres float :=
  match b with
  | O => inl division_by_zero
  | S _ => inr (float_of_nat a / float_of_nat b)%float
  end.

(** [x / n] for a float and a length. *)
Definition float_div_len (x : float) (n : nat) : pyres float :=
  match n with
  | O => inl (Exc ZeroDivisionError "float division by zero")
  | S _ => inr (x / float_of_nat n)%float
  end.

(** [format(t, ".3f")] on an [Optional[float]]. *)
Definition format_opt_f (digits : nat) (t : option float) : pyres string :=
  match t with
  | Some x => inr (format_f digits x)
  | None =>
      inl (Exc TypeError "unsupported format string passed to NoneType.__format__")
  end.

(** [t or dflt]. *)
Definition time_or (dflt : float) (t : option float) : float :=
  match t with
  | Some x => if PrimFloat.eqb x 0%float then dflt else x
  | None => dflt
  end.

(** [sum], [min] and [max] over a generator of floats. *)
Definition py_sum (l : list float) : float :=
  fold_left PrimFloat.add l 0%float.

Definition py_min (l : list float) : pyres float :=
  match l with
  | [] => inl (Exc ValueError "min() arg is an empty sequence")
  | x :: l' => inr (fold_left (fun cur y => if PrimFloat.ltb y cur then y else cur) l' x)
  end.

Definition py_max (l : list float) : pyres float :=
  match l with
  | [] => inl (Exc ValueError "max() arg is an empty sequence")
  | x :: l' => inr (fold_left (fun cur y => if PrimFloat.ltb cur y then y else cur) l' x)
  end.

Definition count_success (rs : list TestResult) : nat :=
  List.length (filter success rs).

Definition count_failure (rs : list TestResult) : nat :=
  List.length (filter (fun r => negb (success r)) rs).

(** Section 1: the summary table. *)
Definition report_summary (s : TestSession) : pyres string :=
  let started := strftime (start_time s) "%d/%m/%Y %H:%M:%S" in
  let ended :=
    match end_time s with
    | Some e => strftime e "%d/%m/%Y %H:%M:%S"
    | None => "Em andamento"
    end in
  let duration := get_duration s in
  let total := List.length (results s) in
  rate <~ int_truediv (count_success (results s)) total ;;
  inr (unlines
         ["# 🏦 Relatório de Testes - Celcoin BaaS";
          EmptyString;
          "## 📊 Resumo da Sessão";
          EmptyString;
          "| Campo | Valor |";
          "|-------|-------|";
          "| **Session ID** | `" ++ session_id s ++ "` |";
          "| **Data/Hora Início** | " ++ started ++ " |";
          "| **Data/Hora Fim** | " ++ ended ++ " |";
          "| **Duração Total** | " ++ duration ++ " |";
          "| **Total de Testes** | " ++ PyStr.of_nat total ++ " |";
          "| **Sucessos** | " ++ PyStr.of_nat (count_success (results s)) ++ " |";
          "| **Falhas** | " ++ PyStr.of_nat (count_failure (results s)) ++ " |";
          "| **Taxa de Sucesso** | " ++ format_f 1 (rate * 100)%float ++ "% |";
          EmptyString;
          "---";
          EmptyString;
          "## 📋 Resultados Detalhados";
          EmptyString]).

Definition json_block (title : string) (v : pyval) : string :=
  unlines [title; "```json"; json_dumps v; "```"; EmptyString].

Definition important_header (kv : string * string) : bool :=
  existsb (String.eqb (PyStr.lower (fst kv)))
    ["content-type"; "x-ratelimit-remaining"; "x-request-id"].

Definition headers_value (h : header_dict) : pyval :=
  PDict (map (fun kv => (fst kv, PStr (snd kv))) h).

(** Section 2, one entry: the [i]-th result. *)
Definition report_result (i : nat) (r : TestResult) : pyres string :=
  let status_emoji := if success r then "✅" else "❌" in
  let status :=
    match response_status r with
    | Some z => PyStr.of_Z z
    | None => "None"
    end in
  elapsed <~ format_opt_f 3 (execution_time r) ;;
  let head :=
    unlines
      ["### " ++ PyStr.of_nat i ++ ". " ++ status_emoji ++ " " ++ test_name r;
       EmptyString;
       "**Endpoint:** `" ++ method r ++ " " ++ endpoint r ++ "`  ";
       "**Timestamp:** " ++ strftime (timestamp r) "%H:%M:%S" ++ "  ";
       "**Status HTTP:** `" ++ status ++ "`  ";
       "**Tempo de Execução:** " ++ elapsed ++ "s  ";
       EmptyString] in
  let payload :=
    if truthy (request_payload r)
    then json_block "#### 📤 Request Payload" (request_payload r)
    else EmptyString in
  let body :=
    if truthy (response_body r)
    then json_block "#### 📥 Response Body" (response_body r)
    else EmptyString in
  let hdrs :=
    match response_headers r with
    | Some (_ :: _ as h) =>
        match filter important_header h with
        | [] => EmptyString
        | important_headers =>
            json_block "#### 📋 Response Headers" (headers_value important_headers)
        end
    | _ => EmptyString
    end in
  let err :=
    match error_message r with
    | Some (String _ _ as m) => unlines ["#### ⚠️ Erro"; "```"; m; "```"; EmptyString]
    | _ => EmptyString
    end in
  inr (head ++ payload ++ body ++ hdrs ++ err ++ unlines ["---"; EmptyString]).

(** Section 2: [for i, result in enumerate(session.results, 1)]. *)
Fixpoint report_details (i : nat) (rs : list TestResult) : pyres string :=
  match rs with
  | [] => inr EmptyString
  | r :: rs' =>
      one <~ report_result i r ;;
      rest <~ report_details (S i) rs' ;;
      inr (one ++ rest)
  end.

(** Section 3: the fixed description of the recommended order. *)
Definition report_pipeline : string :=
  unlines
    ["## 🔄 Pipeline de Execução";
     EmptyString;
     "### Ordem Recomendada de Testes:";
     EmptyString;
     "1. **Autenticação OAuth2** → Obter token de acesso";
     "2. **DICT Lookup** → Validar chave PIX antes de transacionar";
     "3. **Pagamento PIX** → Executar transação PIX";
     "4. **Consulta Status PIX** → Verificar resultado da transação";
     "5. **TED** → Transferência para outros bancos";
     "6. **Transferência Interna** → Entre contas BaaS (mesmo cliente)";
     EmptyString;
     "### 📈 Métricas de Performance";
     EmptyString].

(** Section 4: the aggregate timing block, under [if session.results:]. *)
Definition report_metrics (s : TestSession) : pyres string :=
  match results s with
  | [] => inr EmptyString
  | _ :: _ =>
      let times := map execution_time (results s) in
      avg_time <~ float_div_len (py_sum (map (time_or 0%float) times))
                    (List.length (results s)) ;;
      fastest <~ py_min (map (time_or infinity) times) ;;
      slowest <~ py_max (map (time_or 0%float) times) ;;
      inr (unlines
             ["| Métrica | Valor |";
              "|---------|-------|";
              "| **Tempo Médio** | " ++ format_f 3 avg_time ++ "s |";
              "| **Mais Rápido** | " ++ format_f 3 fastest ++ "s |";
              "| **Mais Lento** | " ++ format_f 3 slowest ++ "s |";
              EmptyString])
  end.

(** Section 5: the environment footer. *)
Definition report_footer (base_url : string) (generated : datetime) : string :=
  unlines
    ["---";
     EmptyString;
     "## 🔧 Configuração do Ambiente";
     EmptyString;
     "- **Base URL:** `" ++ base_url ++ "`";
     "- **Ambiente:** Sandbox";
     "- **Data do Relatório:** " ++ strftime generated "%d/%m/%Y %H:%M:%S";
     EmptyString;
     "---";
     EmptyString;
     "*Relatório gerado automaticamente pelo Celcoin BaaS Tester*"].

(** [ReportGenerator.generate_report]: the five sections in order; the
    clock is read when the footer is reached. *)
Definition generate_report (s : TestSession) : Py string :=
  summary <- lift (report_summary s) ;;
  details <- lift (report_details 1 (results s)) ;;
  metrics <- lift (report_metrics s) ;;
  base <- gets (fun t => BASE_URL (config t)) ;;
  generated <- now ;;
  ret (summary ++ details ++ report_pipeline ++ metrics
         ++ report_footer base generated).

(** [save_report]: finish the session, render it, write the file. *)
Definition save_report : Py unit :=
  finished <- now ;;
  modify (fun t => with_session t (finish (session t) finished)) ;;;
  s <- gets session ;;
  report_content <- generate_report s ;;
  stamp <- now ;;
  let filename :=
    "celcoin_test_report_" ++ strftime stamp "%Y%m%d_%H%M%S" ++ ".md" in
  fun w =>
    (inr tt,
     mkWorld (self w) (sent w) (n_now w) (n_time w) (n_uuid w)
       (files w ++ [(filename, report_content)])%list).

(** [main] with mode 2, on a tester already constructed: the body of the
    [try] and its [except Exception]. *)
Definition main_pipeline : Py unit :=
  try_except (run_pipeline_test ;;; save_report) (fun _ => ret tt).

(** [CelcoinTester.__init__]. *)
Definition CelcoinTester_init (c : CelcoinConfig) (uuid_str : string)
           (started : datetime) : pyres CelcoinTester :=
  cfg <~ CelcoinConfig_init c ;;
  inr (mkTester cfg PNone None (TestSession_init uuid_str started)).

(** ** Runs of the harness

    A driver (the pipeline, the interactive menu) is a sequence of Executor
    invocations and authenticate calls. *)

Record call : Type := mkCall {
  c_method : string;
  c_url : string;
  c_payload : pyval;
  c_params : pyval;
  c_name : string
}.

Definition invoke (c : call) : Py TestResult :=
  _make_request (c_method c) (c_url c) (c_payload c) (c_params c) (c_name c).

Fixpoint invoke_all (cs : list call) : Py (list TestResult) :=
  match cs with
  | [] => ret []
  | c :: cs' =>
      r <- invoke c ;;
      rs <- invoke_all cs' ;;
      ret (r :: rs)
  end.

Inductive op : Type :=
| Invoke (c : call)
| Authenticate.

Inductive op_result : Type :=
| Invoked (r : TestResult)
| Authenticated (ok : bool).

Definition run_op (o : op) : Py op_result :=
  match o with
  | Invoke c => r <- invoke c ;; ret (Invoked r)
  | Authenticate => ok <- authenticate ;; ret (Authenticated ok)
  end.

Fixpoint run_ops (os : list op) : Py (list op_result) :=
  match os with
  | [] => ret []
  | o :: os' =>
      r <- run_op o ;;
      rs <- run_ops os' ;;
      ret (r :: rs)
  end.

(** No authenticate call of the run returned success. *)
Definition no_auth_success (rs : list op_result) : bool :=
  forallb (fun r => match r with Authenticated true => false | _ => true end) rs.

(** The requests of a log that carry a [headers] argument: the Executor's
    (authenticate passes none). *)
Definition executor_headers_of (log : list request) : list header_dict :=
  flat_map (fun rq => match rq_headers rq with Some h => [h] | None => [] end) log.

(** *** What one Executor invocation does, read off [_make_request] *)

Definition executor_headers (token : pyval) : header_dict :=
  if truthy token then get_headers token
  else [("Content-Type", "application/json")].

(** The request a method string selects, if any. *)
Definition executor_request (token : pyval) (method url : string)
           (payload params : pyval) : option request :=
  let headers := executor_headers token in
  if PyStr.upper method =? "POST" then
    Some (mkRequest POST url (Some headers) payload PNone PNone)
  else if PyStr.upper method =? "GET" then
    Some (mkRequest GET url (Some headers) PNone params PNone)
  else if PyStr.upper method =? "PUT" then
    Some (mkRequest PUT url (Some headers) payload PNone PNone)
  else if PyStr.upper method =? "DELETE" then
    Some (mkRequest DELETE url (Some headers) PNone PNone PNone)
  else None.

(** The result as constructed before the [try]. *)
Definition initial_result (base method url : string) (payload : pyval)
           (name : string) (ts : datetime) : TestResult :=
  set_request_payload
    (TestResult_init name (PyStr.replace url base EmptyString) method ts) payload.

(** The result after a response came back. *)
Definition response_result (r0 : TestResult) (elapsed : float) (resp : response)
  : TestResult :=
  let r := set_execution_time r0 (Some elapsed) in
  let r := set_response_status r (Some (status_code resp)) in
  let r := set_response_headers r (Some (resp_headers resp)) in
  let r :=
    set_response_body r
      (match resp_json resp with
       | Some v => v
       | None => PDict [("raw_response", PStr (text resp))]
       end) in
  let r := set_success r (success_status (status_code resp)) in
  if negb (success r)
  then set_error_message r
         (Some ("HTTP " ++ PyStr.of_Z (status_code resp) ++ ": " ++ text resp))
  else r.

(** The result the [except] branch leaves. *)
Definition exception_result (r0 : TestResult) (elapsed : float) (msg : string)
  : TestResult :=
  set_error_message (set_success (set_execution_time r0 (Some elapsed)) false)
    (Some msg).

(** The world after one invocation that logged [r] and left [log] sent. *)
Definition after_invocation (w : World) (log : list request) (r : TestResult)
  : World :=
  mkWorld (with_session (self w) (add_result (session (self w)) r)) log
    (S (n_now w)) (S (S (n_time w))) (n_uuid w) (files w).

(** The form-encoded token request of [authenticate]. *)
Definition token_request (cfg : CelcoinConfig) : request :=
  mkRequest POST (BASE_URL cfg ++ "/v5/token") None PNone PNone
    (PDict [("client_id", opt_str (CLIENT_ID cfg));
            ("client_secret", opt_str (CLIENT_SECRET cfg));
            ("grant_type", PStr "client_credentials")]).

(** The result [authenticate] fills before it branches on the status. *)
Definition auth_result (ts : datetime) (resp : response) : TestResult :=
  let r := TestResult_init "Autenticação OAuth2" "/v5/token" "POST" ts in
  let r :=
    set_request_payload r
      (PDict [("client_id", PStr "***"); ("grant_type", PStr "client_credentials")]) in
  let r := set_response_status r (Some (status_code resp)) in
  set_response_headers r (Some (resp_headers resp)).

(** The result recorded on HTTP 200, and on another status. *)
Definition auth_success_result (ts : datetime) (resp : response) (expires_in : pyval)
  : TestResult :=
  set_success
    (set_response_body (auth_result ts resp)
       (PDict [("access_token", PStr "***"); ("expires_in", expires_in)])) true.

Definition auth_failure_result (ts : datetime) (resp : response) (body : pyval)
  : TestResult :=
  set_error_message
    (set_success (set_response_body (auth_result ts resp) body) false)
    (Some ("Erro na autenticação: " ++ PyStr.of_Z (status_code resp))).

(** The world once the token request is out and the clock was read. *)
Definition after_token_request (w : World) (t : CelcoinTester) : World :=
  mkWorld t (sent w ++ [token_request (config (self w))])%list
    (S (n_now w)) (n_time w) (n_uuid w) (files w).

(** *** The wire of a run *)

(** Whether the call's method is one the Executor dispatches. *)
Definition supported (c : call) : bool :=
  existsb (String.eqb (PyStr.upper (c_method c))) ["POST"; "GET"; "PUT"; "DELETE"].

(** The [headers] argument of each request an operation sends, when the
    Executor works under [headers]: one request for a supported call, none
    for another, and the token request, which passes no headers. *)
Definition headers_sent (headers : header_dict) (o : op) : list (option header_dict) :=
  match o with
  | Invoke c => if supported c then [Some headers] else []
  | Authenticate => [None]
  end.

End Harness.

(** ** A runtime and a small world to run the harness on

    Dates are civil records, [strftime] knows the directives the script
    uses, and [format(x, ".nf")] rounds the exact binary value half to
    even, as CPython does.  The JSON and [repr] printers are compact ones:
    they write a float in fixed notation with six decimals. *)

Module Demo.

Record civil : Type := mkCivil {
  year : Z; month : Z; day : Z; hour : Z; minute : Z; second : Z; micro : Z
}.

Definition pad (width : nat) (z : Z) : string :=
  let digits := PyStr.of_Z z in
  String.concat EmptyString (repeat "0" (width - String.length digits)) ++ digits.

Fixpoint strftime (d : civil) (fmt : string) : string :=
  match fmt with
  | String "%" (String c rest) =>
      (if Ascii.eqb c "d" then pad 2 (day d)
       else if Ascii.eqb c "m" then pad 2 (month d)
       else if Ascii.eqb c "Y" then pad 4 (year d)
       else if Ascii.eqb c "H" then pad 2 (hour d)
       else if Ascii.eqb c "M" then pad 2 (minute d)
       else if Ascii.eqb c "S" then pad 2 (second d)
       else String "%" (String c EmptyString))
      ++ strftime d rest
  | String c rest => String c (strftime d rest)
  | EmptyString => EmptyString
  end.

(** Days since 1970-01-01 in the proleptic Gregorian calendar. *)
Definition days_from_civil (d : civil) : Z :=
  let y := (if month d <=? 2 then year d - 1 else year d)%Z in
  let era := (y / 400)%Z in
  let yoe := (y - era * 400)%Z in
  let mp := (if month d <=? 2 then month d + 9 else month d - 3)%Z in
  let doy := ((153 * mp + 2) / 5 + day d - 1)%Z in
  let doe := (yoe * 365 + yoe / 4 - yoe / 100 + doy)%Z in
  (era * 146097 + doe - 719468)%Z.

Definition micros (d : civil) : Z :=
  ((((days_from_civil d * 24 + hour d) * 60 + minute d) * 60 + second d) * 1000000
   + micro d)%Z.

Definition float_of_Z (z : Z) : float :=
  if (z <? 0)%Z then (- PrimFloat.of_uint63 (Uint63.of_Z (- z)))%float
  else PrimFloat.of_uint63 (Uint63.of_Z z).

Definition total_seconds (a b : civil) : float :=
  (float_of_Z (micros a - micros b) / 1000000)%float.

(** [num / den] rounded half to even, for [den > 0]. *)
Definition div_half_even (num den : Z) : Z :=
  let q := (num / den)%Z in
  let r := (num mod den)%Z in
  if (den <? 2 * r)%Z then (q + 1)%Z
  else if andb (2 * r =? den)%Z (Z.odd q) then (q + 1)%Z
  else q.

Definition fixed (digits : nat) (negative : bool) (scaled : Z) : string :=
  let unit := (10 ^ Z.of_nat digits)%Z in
  (if negative then "-" else EmptyString)
  ++ PyStr.of_Z (scaled / unit)
  ++ match digits with
     | O => EmptyString
     | S _ => "." ++ pad digits (scaled mod unit)
     end.

Definition format_f (digits : nat) (x : float) : string :=
  match Prim2SF x with
  | S754_zero s => fixed digits s 0
  | S754_infinity s => if s then "-inf" else "inf"
  | S754_nan => "nan"
  | S754_finite s m e =>
      let num := (Z.pos m * 10 ^ Z.of_nat digits)%Z in
      fixed digits s
        (if (0 <=? e)%Z then (num * 2 ^ e)%Z else div_half_even num (2 ^ (- e)))
  end.

Definition quote : string := String (ascii_of_nat 34) EmptyString.

Definition quoted (s : string) : string := quote ++ s ++ quote.

Definition indent (n : nat) : string :=
  String.concat EmptyString (repeat "  " n).

Definition newline : string := String (ascii_of_nat 10) EmptyString.

Fixpoint dumps (depth : nat) (v : pyval) : string :=
  match v with
  | PNone => "null"
  | PBool b => if b then "true" else "false"
  | PInt z => PyStr.of_Z z
  | PFloat f => format_f 6 f
  | PStr s => quoted s
  | PList l =>
      match l with
      | [] => "[]"
      | _ =>
          "[" ++ newline
          ++ String.concat ("," ++ newline)
               (map (fun x => indent (S depth) ++ dumps (S depth) x) l)
          ++ newline ++ indent depth ++ "]"
      end
  | PDict kv =>
      match kv with
      | [] => "{}"
      | _ =>
          "{" ++ newline
          ++ String.concat ("," ++ newline)
               (map (fun e => indent (S depth) ++ quoted (fst e) ++ ": "
                                ++ dumps (S depth) (snd e)) kv)
          ++ newline ++ indent depth ++ "}"
      end
  end.

Fixpoint repr (v : pyval) : string :=
  match v with
  | PNone => "None"
  | PBool b => if b then "True" else "False"
  | PInt z => PyStr.of_Z z
  | PFloat f => format_f 6 f
  | PStr s => "'" ++ s ++ "'"
  | PList l => "[" ++ String.concat ", " (map repr l) ++ "]"
  | PDict kv =>
      "{" ++ String.concat ", " (map (fun e => "'" ++ fst e ++ "': " ++ repr (snd e)) kv)
      ++ "}"
  end.

Definition runtime : PyRuntime :=
  Build_PyRuntime civil strftime total_seconds format_f (dumps 0) repr.

(** A scripted environment: the n-th HTTP call gets the n-th answer (a
    refused connection once the script is over), the clocks tick. *)
Definition refused : outcome := Failed (Exc RequestException "Connection refused").

Definition scripted (answers : list outcome) : @Env runtime :=
  @mkEnv runtime
    (fun n _ => nth n answers refused)
    (fun n => mkCivil 2024 1 15 10 0 (Z.of_nat n) 0)
    (fun n => (float_of_Z (Z.of_nat n) * 0.125)%float)
    (fun _ => "0123456789abcdef0123456789abcdef").

Definition sandbox : CelcoinConfig :=
  mkConfig "https://sandbox.openfinance.celcoin.dev" (Some "client") (Some "secret").

(** A freshly constructed tester in an untouched world. *)
Definition tester : @CelcoinTester runtime :=
  mkTester sandbox PNone None
    (TestSession_init (RT := runtime) "0123abcd-0000-4000-8000-000000000000"
       (mkCivil 2024 1 15 9 59 59 0)).

Definition world0 : @World runtime := mkWorld tester [] 0 0 0 [].

Definition json_response (status : Z) (v : pyval) : response :=
  mkResponse status [("Content-Type", "application/json")] (dumps 0 v) (Some v).

Definition plain_response (status : Z) (body : string) : response :=
  mkResponse status [("Content-Type", "text/plain")] body None.

Definition lookup : call :=
  mkCall "POST" "https://sandbox.openfinance.celcoin.dev/pix/v1/dict/v2/key"
    (PDict [("key", PStr "test@example.com"); ("keyType", PStr "EMAIL")]) PNone
    "DICT Lookup - EMAIL".

(** Answers of the token endpoint and of the API used in the examples. *)
Definition token_body (token : pyval) : pyval :=
  PDict [("access_token", token); ("expires_in", PInt 3600)].

Definition token_granted (token : pyval) : response :=
  json_response 200 (token_body token).

Definition unauthorized_text : response := plain_response 401 "Unauthorized".

Definition unauthorized_json : response :=
  json_response 401 (PDict [("error", PStr "invalid_client")]).

Definition accepted : response := json_response 201 (PDict []).

Definition insufficient_funds : response :=
  json_response 500 (PDict [("error", PStr "insufficient_funds")]).

Definition bad_gateway : response := plain_response 502 "Bad Gateway".

Definition lookup_request (headers : header_dict) : request :=
  mkRequest POST (c_url lookup) (Some headers) (c_payload lookup) PNone PNone.

Definition bare_headers : header_dict := [("Content-Type", "application/json")].

Definition mixed_answers : @Env runtime :=
  scripted [Responded (token_granted (PStr "tok")); refused;
            Responded bad_gateway; Responded accepted; Responded accepted].

Definition noon : civil := mkCivil 2024 1 15 12 0 0 0.
Definition later : civil := mkCivil 2024 1 15 12 0 5 0.

End Demo.

(** * Properties *)

Section Properties.

Context {RT : PyRuntime}.
Variable env : Env.

(** ** The Executor *)

(** One invocation, in closed form: every path ends in [after_invocation]. *)
Lemma make_request_run (method url : string) (payload params : pyval)
      (name : string) (w : World) :
  _make_request env method url payload params name w =
  let r0 := initial_result (BASE_URL (config (self w))) method url payload name
              (datetime_now env (n_now w)) in
  let elapsed := (time_time env (S (n_time w)) - time_time env (n_time w))%float in
  match executor_request (access_token (self w)) method url payload params with
  | Some rq =>
      match http env (List.length (sent w)) rq with
      | Responded resp =>
          let r := response_result r0 elapsed resp in
          (inr r, after_invocation w (sent w ++ [rq])%list r)
      | Failed e =>
          let r := exception_result r0 elapsed (exc_str e) in
          (inr r, after_invocation w (sent w ++ [rq])%list r)
      end
  | None =>
      let r := exception_result r0 elapsed ("Método HTTP não suportado: " ++ method) in
      (inr r, after_invocation w (sent w) r)
  end.
Proof.
  unfold _make_request, executor_request, executor_headers.
  unfold bind, gets, now, time, try_except, session_add_result, modify, ret, raise, send.
  cbn.
  destruct (PyStr.upper method =? "POST");
    [| destruct (PyStr.upper method =? "GET");
       [| destruct (PyStr.upper method =? "PUT");
          [| destruct (PyStr.upper method =? "DELETE")]]]; cbn;
    try (match goal with |- context [http env ?n ?rq] => destruct (http env n rq) end);
    cbn; reflexivity.
Qed.

(** ** Authenticate, in closed form *)

Lemma authenticate_run (w : World) :
  authenticate env w =
  let rq := token_request (config (self w)) in
  match http env (List.length (sent w)) rq with
  | Failed _ =>
      (inr false,
       mkWorld (self w) (sent w ++ [rq])%list (n_now w) (n_time w) (n_uuid w) (files w))
  | Responded resp =>
      let ts := datetime_now env (n_now w) in
      let unchanged := after_token_request w (self w) in
      if (status_code resp =? 200)%Z then
        match resp_json resp with
        | Some (PDict kv) =>
            let item k := match dict_lookup k kv with Some x => x | None => PNone end in
            let r := auth_success_result ts resp (item "expires_in") in
            (inr true,
             after_token_request w
               (mkTester (config (self w)) (item "access_token")
                  (token_expires_at (self w)) (add_result (session (self w)) r)))
        | _ => (inr false, unchanged)
        end
      else
        match (if PyStr.truthy (text resp) then resp_json resp else Some (PDict [])) with
        | Some body =>
            let r := auth_failure_result ts resp body in
            (inr false,
             after_token_request w (with_session (self w) (add_result (session (self w)) r)))
        | None => (inr false, unchanged)
        end
  end.
Proof.
  unfold authenticate, bind, try_except, gets, send, now, lift, modify,
    session_add_result, response_json, ret, raise.
  cbn.
  fold (token_request (config (self w))).
  destruct (http env (List.length (sent w)) (token_request (config (self w))))
    as [resp | e]; cbn; [| reflexivity].
  destruct (status_code resp =? 200)%Z; cbn.
  - destruct (resp_json resp) as [[ | b | z | f | s | l | kv] |]; cbn; reflexivity.
  - destruct (PyStr.truthy (text resp)); cbn;
      [destruct (resp_json resp); cbn |]; reflexivity.
Qed.

Lemma success_status_spec (st : Z) :
  success_status st = true <-> (st = 200 \/ st = 201 \/ st = 202)%Z.
Proof.
  unfold success_status; cbn.
  rewrite !orb_true_iff, !Z.eqb_eq. intuition congruence.
Qed.

Lemma response_result_success (r0 : TestResult) (elapsed : float) (resp : response) :
  success (response_result r0 elapsed resp) = success_status (status_code resp).
Proof.
  unfold response_result.
  generalize (success_status (status_code resp)); intros []; reflexivity.
Qed.

Lemma response_result_status (r0 : TestResult) (elapsed : float) (resp : response) :
  response_status (response_result r0 elapsed resp) = Some (status_code resp).
Proof.
  unfold response_result.
  generalize (success_status (status_code resp)); intros []; reflexivity.
Qed.

Lemma response_result_body (r0 : TestResult) (elapsed : float) (resp : response) :
  response_body (response_result r0 elapsed resp) =
  match resp_json resp with
  | Some v => v
  | None => PDict [("raw_response", PStr (text resp))]
  end.
Proof.
  unfold response_result.
  generalize (success_status (status_code resp)); intros []; reflexivity.
Qed.

Lemma response_result_error (r0 : TestResult) (elapsed : float) (resp : response) :
  error_message r0 = None ->
  error_message (response_result r0 elapsed resp) =
  if success_status (status_code resp) then None
  else Some ("HTTP " ++ PyStr.of_Z (status_code resp) ++ ": " ++ text resp).
Proof.
  intros H. unfold response_result.
  generalize (success_status (status_code resp)); intros []; [exact H | reflexivity].
Qed.

Lemma response_result_call (r0 : TestResult) (elapsed : float) (resp : response) :
  test_name (response_result r0 elapsed resp) = test_name r0 /\
  method (response_result r0 elapsed resp) = method r0 /\
  request_payload (response_result r0 elapsed resp) = request_payload r0.
Proof.
  unfold response_result.
  generalize (success_status (status_code resp)); intros []; repeat split; reflexivity.
Qed.

(** C1: when the Executor's request gets a response, the call returns a
    result that carries the response status and whose success flag is true
    exactly when that status is 200, 201 or 202. *)
Theorem make_request_success_iff_status
        (method url : string) (payload params : pyval) (name : string)
        (w : World) (rq : request) (resp : response) :
  executor_request (access_token (self w)) method url payload params = Some rq ->
  http env (List.length (sent w)) rq = Responded resp ->
  exists r w',
    _make_request env method url payload params name w = (inr r, w') /\
    response_status r = Some (status_code resp) /\
    (success r = true <->
     (status_code resp = 200 \/ status_code resp = 201 \/ status_code resp = 202)%Z).
Proof.
  intros Hrq Hresp.
  rewrite make_request_run, Hrq; cbn zeta. rewrite Hresp.
  eexists; eexists; split; [reflexivity |].
  rewrite response_result_status, response_result_success.
  split; [reflexivity | apply success_status_spec].
Qed.

(** C6: when the response body does not decode as JSON, the call still
    returns; the result's body is the raw text under [raw_response] and the
    success flag is the status test alone. *)
Theorem make_request_raw_body_fallback
        (method url : string) (payload params : pyval) (name : string)
        (w : World) (rq : request) (resp : response) :
  executor_request (access_token (self w)) method url payload params = Some rq ->
  http env (List.length (sent w)) rq = Responded resp ->
  resp_json resp = None ->
  exists r w',
    _make_request env method url payload params name w = (inr r, w') /\
    response_body r = PDict [("raw_response", PStr (text resp))] /\
    success r = success_status (status_code resp).
Proof.
  intros Hrq Hresp Hjson.
  rewrite make_request_run, Hrq; cbn zeta. rewrite Hresp.
  eexists; eexists; split; [reflexivity |].
  rewrite response_result_body, response_result_success, Hjson.
  split; reflexivity.
Qed.

(** Every invocation returns a result and appends it, whatever the path. *)
Lemma invoke_appends (c : call) (w : World) :
  exists r w',
    invoke env c w = (inr r, w') /\
    self w' = with_session (self w) (add_result (session (self w)) r) /\
    test_name r = c_name c /\ method r = c_method c /\
    request_payload r = c_payload c.
Proof.
  unfold invoke. rewrite make_request_run. cbn zeta.
  destruct (executor_request _ _ _ _ _) as [rq |].
  - destruct (http env _ rq) as [resp | e].
    + eexists; eexists; split; [reflexivity |].
      split; [reflexivity |]. apply response_result_call.
    + eexists; eexists; split; [reflexivity |]. cbn. repeat split; reflexivity.
  - eexists; eexists; split; [reflexivity |]. cbn. repeat split; reflexivity.
Qed.

(** C2: a sequence of Executor invocations returns one result per call and
    leaves the session's list extended by exactly these results, in call
    order; the i-th result is the i-th call's (name, method, payload). *)
Theorem invoke_all_appends_in_order (cs : list call) (w : World) :
  exists rs w',
    invoke_all env cs w = (inr rs, w') /\
    results (session (self w')) = (results (session (self w)) ++ rs)%list /\
    List.length rs = List.length cs /\
    List.length (results (session (self w'))) =
      (List.length (results (session (self w))) + List.length cs)%nat /\
    map test_name rs = map c_name cs /\
    map method rs = map c_method cs /\
    map request_payload rs = map c_payload cs.
Proof.
  revert w. induction cs as [| c cs IH]; intros w.
  - exists [], w. cbn. rewrite app_nil_r, Nat.add_0_r. repeat split; reflexivity.
  - destruct (invoke_appends c w) as (r & w1 & Hrun & Hself & Hn & Hm & Hp).
    destruct (IH w1) as (rs & w2 & Hrest & Hres & Hlen & Hcount & Hns & Hms & Hps).
    exists (r :: rs), w2.
    cbn [invoke_all]. unfold bind at 1. rewrite Hrun.
    unfold bind at 1. rewrite Hrest. unfold ret.
    split; [reflexivity |].
    assert (Hstep : results (session (self w1))
                    = (results (session (self w)) ++ [r])%list)
      by (rewrite Hself; reflexivity).
    rewrite Hres, Hstep, <- app_assoc. cbn [app].
    split; [reflexivity |].
    rewrite length_app. cbn [List.length map].
    rewrite Hlen, Hn, Hm, Hp, Hns, Hms, Hps.
    repeat split; reflexivity.
Qed.

(** ** What one operation leaves behind *)

Lemma executor_request_headers (tok : pyval) (method url : string)
      (payload params : pyval) (rq : request) :
  executor_request tok method url payload params = Some rq ->
  rq_headers rq = Some (executor_headers tok).
Proof.
  unfold executor_request.
  repeat match goal with
         | |- context [if ?b then _ else _] => destruct b
         end; intros H; inversion H; reflexivity.
Qed.

(** An invocation touches the session only; what it sends, if anything,
    carries the headers of the token held when it started. *)
Lemma invoke_effect (c : call) (w : World) :
  exists r w' new,
    invoke env c w = (inr r, w') /\
    self w' = with_session (self w) (add_result (session (self w)) r) /\
    sent w' = (sent w ++ new)%list /\
    Forall (eq (executor_headers (access_token (self w)))) (executor_headers_of new).
Proof.
  unfold invoke. rewrite make_request_run. cbn zeta.
  destruct (executor_request _ _ _ _ _) as [rq |] eqn:Hrq.
  - apply executor_request_headers in Hrq.
    assert (Hh : Forall (eq (executor_headers (access_token (self w))))
                   (executor_headers_of [rq])).
    { unfold executor_headers_of; cbn. rewrite Hrq. repeat constructor. }
    destruct (http env _ rq) as [resp | e];
      eexists; eexists; exists [rq]; repeat split; try reflexivity; exact Hh.
  - eexists; eexists; exists []; repeat split; try reflexivity.
    + cbn. now rewrite app_nil_r.
    + constructor.
Qed.

(** A supported method sends exactly the selected request, whose headers
    are those of the token held. *)
Lemma invoke_sends_selected_request (c : call) (w : World) (rq : request) :
  executor_request (access_token (self w)) (c_method c) (c_url c) (c_payload c)
    (c_params c) = Some rq ->
  sent (snd (invoke env c w)) = (sent w ++ [rq])%list /\
  executor_headers_of [rq] = [executor_headers (access_token (self w))].
Proof.
  intros Hrq. unfold invoke. rewrite make_request_run. cbn zeta. rewrite Hrq.
  apply executor_request_headers in Hrq.
  split.
  - destruct (http env _ rq); reflexivity.
  - unfold executor_headers_of; cbn. now rewrite Hrq.
Qed.

(** Authenticate always returns; it sends the token request without a
    [headers] argument, keeps configuration and end time, and writes the
    token only when it returns success. *)
Lemma authenticate_effect (w : World) :
  exists ok w',
    authenticate env w = (inr ok, w') /\
    config (self w') = config (self w) /\
    end_time (session (self w')) = end_time (session (self w)) /\
    sent w' = (sent w ++ [token_request (config (self w))])%list /\
    (ok = false -> access_token (self w') = access_token (self w)).
Proof.
  rewrite authenticate_run. cbn zeta.
  destruct (http env _ _) as [resp | e].
  - destruct (status_code resp =? 200)%Z.
    + destruct (resp_json resp) as [[ | b | z | f | s | l | kv] |];
        eexists; eexists; (split; [reflexivity |]); cbn;
        repeat split; try reflexivity; intros H; discriminate H.
    + destruct (if PyStr.truthy (text resp) then resp_json resp else Some (PDict []));
        eexists; eexists; (split; [reflexivity |]); cbn; repeat split; reflexivity.
  - eexists; eexists; (split; [reflexivity |]); cbn; repeat split; reflexivity.
Qed.

Lemma executor_headers_of_app (a b : list request) :
  executor_headers_of (a ++ b) = (executor_headers_of a ++ executor_headers_of b)%list.
Proof. unfold executor_headers_of. apply flat_map_app. Qed.

(** A run of operations always returns; the end time is never touched;
    and as long as no authenticate call succeeds, the token stays and every
    request the Executor sends carries its headers. *)
Lemma run_ops_effect (os : list op) (w : World) :
  exists rs w' new,
    run_ops env os w = (inr rs, w') /\
    List.length rs = List.length os /\
    end_time (session (self w')) = end_time (session (self w)) /\
    sent w' = (sent w ++ new)%list /\
    (no_auth_success rs = true ->
     access_token (self w') = access_token (self w) /\
     Forall (eq (executor_headers (access_token (self w)))) (executor_headers_of new)).
Proof.
  revert w. induction os as [| o os IH]; intros w.
  - exists [], w, []. cbn. rewrite app_nil_r.
    repeat split; try reflexivity. constructor.
  - destruct o as [c |].
    + destruct (invoke_effect c w) as (r & w1 & new1 & Hrun & Hself & Hsent & Hh).
      destruct (IH w1) as (rs & w2 & new2 & Hrest & Hlen & Hend & Hsent2 & Hkeep).
      exists (Invoked r :: rs), w2, (new1 ++ new2)%list.
      cbn [run_ops run_op]. unfold bind at 1. unfold bind at 1. rewrite Hrun.
      unfold ret at 1. unfold bind at 1. rewrite Hrest. unfold ret.
      assert (Htok : access_token (self w1) = access_token (self w))
        by (rewrite Hself; reflexivity).
      repeat split.
      * cbn. now rewrite Hlen.
      * rewrite Hend, Hself. reflexivity.
      * rewrite Hsent2, Hsent. now rewrite app_assoc.
      * cbn in H. destruct (Hkeep H) as [Ht _]. now rewrite Ht.
      * cbn in H. destruct (Hkeep H) as [_ Hf].
        rewrite executor_headers_of_app. apply Forall_app. split; [exact Hh |].
        now rewrite <- Htok.
    + destruct (authenticate_effect w) as (ok & w1 & Hrun & Hcfg & Hend1 & Hsent & Hfail).
      destruct (IH w1) as (rs & w2 & new2 & Hrest & Hlen & Hend & Hsent2 & Hkeep).
      exists (Authenticated ok :: rs), w2, (token_request (config (self w)) :: new2).
      cbn [run_ops run_op]. unfold bind at 1. unfold bind at 1. rewrite Hrun.
      unfold ret at 1. unfold bind at 1. rewrite Hrest. unfold ret.
      repeat split.
      * cbn. now rewrite Hlen.
      * now rewrite Hend.
      * rewrite Hsent2, Hsent, <- app_assoc. reflexivity.
      * cbn in H. destruct ok; [discriminate H |].
        destruct (Hkeep H) as [Ht _]. rewrite Ht. now apply Hfail.
      * cbn in H. destruct ok; [discriminate H |].
        destruct (Hkeep H) as [_ Hf].
        unfold executor_headers_of; cbn. fold (executor_headers_of new2).
        now rewrite <- (Hfail eq_refl).
Qed.

(** ** The session's end time *)

(** C4, as the code has it: appending a result and every run of Executor
    and authenticate calls leave the end time as it was; [finish] alone
    writes it, and each call of [finish], a repeated one too, sets it to
    the time of that call. *)
Theorem end_time_written_by_finish_only :
  (forall (s : TestSession) (r : TestResult), end_time (add_result s r) = end_time s) /\
  (forall (os : list op) (w : World),
      exists rs w',
        run_ops env os w = (inr rs, w') /\
        end_time (session (self w')) = end_time (session (self w))) /\
  (forall (s : TestSession) (t : datetime), end_time (finish s t) = Some t).
Proof.
  split; [reflexivity |]. split; [| reflexivity].
  intros os w.
  destruct (run_ops_effect os w) as (rs & w' & new & Hrun & _ & Hend & _).
  exists rs, w'. split; assumption.
Qed.

(** ** The stored token *)

Lemma executor_request_dispatch (tok : pyval) (c : call) :
  (supported c = true ->
   exists rq,
     executor_request tok (c_method c) (c_url c) (c_payload c) (c_params c) = Some rq /\
     rq_headers rq = Some (executor_headers tok) /\
     rq_url rq = c_url c) /\
  (supported c = false ->
   executor_request tok (c_method c) (c_url c) (c_payload c) (c_params c) = None).
Proof.
  unfold supported, executor_request. cbn [existsb].
  destruct (PyStr.upper (c_method c) =? "POST");
    [| destruct (PyStr.upper (c_method c) =? "GET");
       [| destruct (PyStr.upper (c_method c) =? "PUT");
          [| destruct (PyStr.upper (c_method c) =? "DELETE")]]];
    cbn [orb]; split; intros H; try discriminate H;
    try (eexists; repeat split); reflexivity.
Qed.

(** One invocation on the wire: a supported call sends exactly one
    request, to its URL and under the headers of the token held; another
    call sends nothing. *)
Lemma invoke_wire (c : call) (w : World) :
  exists r w' new,
    invoke env c w = (inr r, w') /\
    self w' = with_session (self w) (add_result (session (self w)) r) /\
    sent w' = (sent w ++ new)%list /\
    map rq_headers new
    = headers_sent (executor_headers (access_token (self w))) (Invoke c) /\
    (supported c = true ->
     exists rq, new = [rq] /\
                rq_headers rq = Some (executor_headers (access_token (self w))) /\
                rq_url rq = c_url c).
Proof.
  destruct (executor_request_dispatch (access_token (self w)) c) as [Hyes Hno].
  unfold invoke. rewrite make_request_run. cbn zeta. cbn [headers_sent].
  destruct (supported c).
  - destruct (Hyes eq_refl) as (rq & Hrq & Hh & Hu). rewrite Hrq.
    destruct (http env _ rq) as [resp | e];
      eexists; eexists; exists [rq];
      (split; [reflexivity |]); (split; [reflexivity |]); (split; [reflexivity |]);
      (split; [cbn; now rewrite Hh |]); intros _; exists rq; repeat split; assumption.
  - rewrite (Hno eq_refl).
    eexists; eexists; exists [].
    split; [reflexivity |]. split; [reflexivity |].
    split; [cbn; now rewrite app_nil_r |]. split; [reflexivity | discriminate].
Qed.

(** A run on the wire: as long as no authenticate call succeeds the token
    stays, and the requests sent are, in order, exactly those of
    [headers_sent] under the headers of that token. *)
Lemma run_ops_wire (os : list op) (w : World) :
  exists rs w' new,
    run_ops env os w = (inr rs, w') /\
    sent w' = (sent w ++ new)%list /\
    (no_auth_success rs = true ->
     access_token (self w') = access_token (self w) /\
     map rq_headers new
     = flat_map (headers_sent (executor_headers (access_token (self w)))) os).
Proof.
  revert w. induction os as [| o os IH]; intros w.
  - exists [], w, []. cbn. rewrite app_nil_r. repeat split; reflexivity.
  - destruct o as [c |].
    + destruct (invoke_wire c w) as (r & w1 & new1 & Hrun & Hself & Hsent & Hh & _).
      destruct (IH w1) as (rs & w2 & new2 & Hrest & Hsent2 & Hkeep).
      exists (Invoked r :: rs), w2, (new1 ++ new2)%list.
      cbn [run_ops run_op]. unfold bind at 1. unfold bind at 1. rewrite Hrun.
      unfold ret at 1. unfold bind at 1. rewrite Hrest. unfold ret.
      assert (Htok : access_token (self w1) = access_token (self w))
        by (rewrite Hself; reflexivity).
      split; [reflexivity |].
      split; [rewrite Hsent2, Hsent; now rewrite app_assoc |].
      intros Hno. cbn in Hno. destruct (Hkeep Hno) as [Ht Hw]. split.
      * now rewrite Ht.
      * rewrite map_app, Hh, Hw, Htok. reflexivity.
    + destruct (authenticate_effect w) as (ok & w1 & Hrun & Hcfg & _ & Hsent & Hfail).
      destruct (IH w1) as (rs & w2 & new2 & Hrest & Hsent2 & Hkeep).
      exists (Authenticated ok :: rs), w2, (token_request (config (self w)) :: new2).
      cbn [run_ops run_op]. unfold bind at 1. unfold bind at 1. rewrite Hrun.
      unfold ret at 1. unfold bind at 1. rewrite Hrest. unfold ret.
      split; [reflexivity |].
      split; [rewrite Hsent2, Hsent, <- app_assoc; reflexivity |].
      intros Hno. cbn in Hno. destruct ok; [discriminate Hno |].
      destruct (Hkeep Hno) as [Ht Hw]. specialize (Hfail eq_refl). split.
      * now rewrite Ht.
      * cbn [map flat_map headers_sent app]. rewrite Hw, Hfail. reflexivity.
Qed.

(** C5, as the code has it: on HTTP 200 with an object body that has an
    [access_token] entry, authenticate returns success, stores that value
    and records a successful result whose body shows the token as [***].
    When the value is truthy then, in any run in which no later
    authenticate call succeeds, the token stays; the requests sent are, in
    order, one per Executor call with a supported method, each under
    exactly [Authorization: Bearer <token>] and the content type, and one
    per authenticate call, without headers; and an Executor call made
    after the run sends exactly one request, to its URL, under those same
    headers. *)
Theorem authenticate_stores_token
        (w : World) (resp : response) (kv : list (string * pyval)) (tok : pyval) :
  http env (List.length (sent w)) (token_request (config (self w))) = Responded resp ->
  status_code resp = 200%Z ->
  resp_json resp = Some (PDict kv) ->
  dict_lookup "access_token" kv = Some tok ->
  exists r w1,
    authenticate env w = (inr true, w1) /\
    access_token (self w1) = tok /\
    results (session (self w1)) = (results (session (self w)) ++ [r])%list /\
    success r = true /\
    (exists expires_in,
        response_body r = PDict [("access_token", PStr "***");
                                 ("expires_in", expires_in)]) /\
    forall os : list op,
    exists rs w2 new,
      run_ops env os w1 = (inr rs, w2) /\
      sent w2 = (sent w1 ++ new)%list /\
      (no_auth_success rs = true ->
       truthy tok = true ->
       access_token (self w2) = tok /\
       map rq_headers new
       = flat_map (headers_sent [("Authorization", "Bearer " ++ py_str tok);
                                 ("Content-Type", "application/json")]) os /\
       Forall (eq [("Authorization", "Bearer " ++ py_str tok);
                   ("Content-Type", "application/json")])
         (executor_headers_of new) /\
       forall c : call,
         supported c = true ->
         exists rq,
           sent (snd (invoke env c w2)) = (sent w2 ++ [rq])%list /\
           rq_url rq = c_url c /\
           rq_headers rq = Some [("Authorization", "Bearer " ++ py_str tok);
                                 ("Content-Type", "application/json")]).
Proof.
  intros Hhttp Hst Hjson Htok.
  rewrite authenticate_run. cbn zeta. rewrite Hhttp, Hst, Hjson, Htok.
  cbn [Z.eqb Pos.eqb].
  eexists; eexists. split; [reflexivity |].
  split; [reflexivity |]. split; [reflexivity |]. split; [reflexivity |].
  split; [eexists; reflexivity |].
  intros os.
  match goal with
  | |- context [run_ops env os ?w1] =>
      destruct (run_ops_effect os w1) as (rs & w2 & new & Hrun & _ & _ & Hsent & Hkeep);
      destruct (run_ops_wire os w1) as (rs' & w2' & new' & Hrun' & Hsent' & Hwire)
  end.
  rewrite Hrun in Hrun'. inversion Hrun'; subst rs' w2'.
  rewrite Hsent in Hsent'. apply app_inv_head in Hsent'. subst new'.
  exists rs, w2, new. split; [exact Hrun |]. split; [exact Hsent |].
  intros Hno Htruthy.
  destruct (Hkeep Hno) as [_ Hf]. destruct (Hwire Hno) as [Ht Hw].
  cbn in Hf, Ht, Hw. unfold executor_headers in Hf, Hw. rewrite Htruthy in Hf, Hw.
  split; [exact Ht |]. split; [exact Hw |]. split; [exact Hf |].
  intros c Hc.
  destruct (invoke_wire c w2) as (r' & w3 & new3 & Hinv & _ & Hsent3 & _ & Hone).
  destruct (Hone Hc) as (rq & Hnew & Hh & Hu). subst new3.
  exists rq. rewrite Hinv. cbn [snd]. split; [exact Hsent3 |]. split; [exact Hu |].
  rewrite Hh, Ht. unfold executor_headers. now rewrite Htruthy.
Qed.

(** C10, as the code has it: on HTTP 200 with an object body that has no
    [access_token] entry, authenticate returns success and records a
    successful result, and the stored token becomes [None].  In any run in
    which no later authenticate call succeeds the token stays [None]; the
    requests sent are, in order, one per Executor call with a supported
    method, each under the content-type header alone, and one per
    authenticate call, without headers; and an Executor call made after
    the run sends exactly one request, to its URL, under the content-type
    header alone. *)
Theorem authenticate_without_token_field
        (w : World) (resp : response) (kv : list (string * pyval)) :
  http env (List.length (sent w)) (token_request (config (self w))) = Responded resp ->
  status_code resp = 200%Z ->
  resp_json resp = Some (PDict kv) ->
  dict_lookup "access_token" kv = None ->
  exists r w1,
    authenticate env w = (inr true, w1) /\
    access_token (self w1) = PNone /\
    results (session (self w1)) = (results (session (self w)) ++ [r])%list /\
    success r = true /\
    forall os : list op,
    exists rs w2 new,
      run_ops env os w1 = (inr rs, w2) /\
      sent w2 = (sent w1 ++ new)%list /\
      (no_auth_success rs = true ->
       access_token (self w2) = PNone /\
       map rq_headers new
       = flat_map (headers_sent [("Content-Type", "application/json")]) os /\
       Forall (eq [("Content-Type", "application/json")]) (executor_headers_of new) /\
       forall c : call,
         supported c = true ->
         exists rq,
           sent (snd (invoke env c w2)) = (sent w2 ++ [rq])%list /\
           rq_url rq = c_url c /\
           rq_headers rq = Some [("Content-Type", "application/json")]).
Proof.
  intros Hhttp Hst Hjson Htok.
  rewrite authenticate_run. cbn zeta. rewrite Hhttp, Hst, Hjson, Htok.
  cbn [Z.eqb Pos.eqb].
  eexists; eexists. split; [reflexivity |].
  split; [reflexivity |]. split; [reflexivity |]. split; [reflexivity |].
  intros os.
  match goal with
  | |- context [run_ops env os ?w1] =>
      destruct (run_ops_effect os w1) as (rs & w2 & new & Hrun & _ & _ & Hsent & Hkeep);
      destruct (run_ops_wire os w1) as (rs' & w2' & new' & Hrun' & Hsent' & Hwire)
  end.
  rewrite Hrun in Hrun'. inversion Hrun'; subst rs' w2'.
  rewrite Hsent in Hsent'. apply app_inv_head in Hsent'. subst new'.
  exists rs, w2, new. split; [exact Hrun |]. split; [exact Hsent |].
  intros Hno.
  destruct (Hkeep Hno) as [_ Hf]. destruct (Hwire Hno) as [Ht Hw].
  cbn in Hf, Ht, Hw.
  split; [exact Ht |]. split; [exact Hw |]. split; [exact Hf |].
  intros c Hc.
  destruct (invoke_wire c w2) as (r' & w3 & new3 & Hinv & _ & Hsent3 & _ & Hone).
  destruct (Hone Hc) as (rq & Hnew & Hh & Hu). subst new3.
  exists rq. rewrite Hinv. cbn [snd]. split; [exact Hsent3 |]. split; [exact Hu |].
  rewrite Hh, Ht. reflexivity.
Qed.

(** A failing authenticate call keeps the token and returns failure: a
    transport exception or any status but 200. *)
Lemma authenticate_failure_keeps_token (w : World) :
  (forall resp, http env (List.length (sent w)) (token_request (config (self w)))
                = Responded resp -> status_code resp <> 200%Z) ->
  exists w',
    authenticate env w = (inr false, w') /\
    access_token (self w') = access_token (self w).
Proof.
  intros Hnot. rewrite authenticate_run. cbn zeta.
  destruct (http env _ _) as [resp | e].
  - specialize (Hnot resp eq_refl). apply Z.eqb_neq in Hnot. rewrite Hnot.
    destruct (if PyStr.truthy (text resp) then resp_json resp else Some (PDict []));
      eexists; split; reflexivity.
  - eexists; split; reflexivity.
Qed.

(** The failed result is recorded when the body is empty or decodes. *)
Lemma authenticate_failure_recorded (w : World) (resp : response) (body : pyval) :
  http env (List.length (sent w)) (token_request (config (self w))) = Responded resp ->
  status_code resp <> 200%Z ->
  (if PyStr.truthy (text resp) then resp_json resp else Some (PDict [])) = Some body ->
  exists r w',
    authenticate env w = (inr false, w') /\
    results (session (self w')) = (results (session (self w)) ++ [r])%list /\
    success r = false /\
    error_message r = Some ("Erro na autenticação: " ++ PyStr.of_Z (status_code resp)).
Proof.
  intros Hhttp Hst Hbody. rewrite authenticate_run. cbn zeta.
  apply Z.eqb_neq in Hst. rewrite Hhttp, Hst, Hbody.
  eexists; eexists; repeat split.
Qed.

(** ** Pipeline mode *)

Lemma make_request_appends (m url : string) (payload params : pyval) (name : string)
      (w : World) :
  exists r w',
    _make_request env m url payload params name w = (inr r, w') /\
    self w' = with_session (self w) (add_result (session (self w)) r) /\
    test_name r = name.
Proof.
  destruct (invoke_appends (mkCall m url payload params name) w)
    as (r & w' & Hrun & Hself & Hname & _).
  exists r, w'. repeat split; assumption.
Qed.

Lemma bind_returned {A B : Type} (c : Py A) (k : A -> Py B) (w w' : World) (a : A) :
  c w = (inr a, w') -> bind c k w = k a w'.
Proof. intros H. unfold bind. now rewrite H. Qed.

Lemma bind_gets {A B : Type} (f : CelcoinTester -> A) (k : A -> Py B) (w : World) :
  bind (gets f) k w = k (f (self w)) w.
Proof. reflexivity. Qed.

Ltac domain_operation :=
  rewrite bind_gets; cbv beta zeta;
  match goal with
  | |- context [bind (_make_request env ?m ?u ?p ?q ?n) _ ?w] =>
      destruct (make_request_appends m u p q n w) as (? & ? & ? & ? & ?)
  end;
  match goal with
  | Hrun : _make_request env _ _ _ _ _ _ = (inr ?r, ?w') |- _ =>
      exists r, w'; rewrite (bind_returned _ _ _ _ _ Hrun); unfold ret
  end;
  repeat split; try assumption; eexists; reflexivity.

(** Each domain operation is one Executor invocation: it returns (it
    never raises) and appends one result under its own name. *)
Lemma test_pix_dict_lookup_appends (pix_key key_type : string) (w : World) :
  exists r w',
    self w' = with_session (self w) (add_result (session (self w)) r) /\
    test_name r = "DICT Lookup - " ++ key_type /\
    exists v, test_pix_dict_lookup env pix_key key_type w = (inr v, w').
Proof. unfold test_pix_dict_lookup. domain_operation. Qed.

Lemma test_pix_payment_appends (amount : float) (k kt cc d : string) (w : World) :
  exists r w',
    self w' = with_session (self w) (add_result (session (self w)) r) /\
    test_name r = "Pagamento PIX - R$ " ++ format_f 2 amount /\
    exists v, test_pix_payment env amount k kt cc d w = (inr v, w').
Proof. unfold test_pix_payment. domain_operation. Qed.

Lemma test_pix_status_appends (transaction_id : string) (w : World) :
  exists r w',
    self w' = with_session (self w) (add_result (session (self w)) r) /\
    test_name r = "Status PIX - " ++ PyStr.take 8 transaction_id ++ "..." /\
    exists v, test_pix_status env transaction_id w = (inr v, w').
Proof. unfold test_pix_status. domain_operation. Qed.

Lemma test_ted_transfer_appends (amount : float) (b ag ac n d cc : string) (w : World) :
  exists r w',
    self w' = with_session (self w) (add_result (session (self w)) r) /\
    test_name r = "TED Transfer - R$ " ++ format_f 2 amount /\
    exists v, test_ted_transfer env amount b ag ac n d cc w = (inr v, w').
Proof. unfold test_ted_transfer. domain_operation. Qed.

Lemma test_internal_transfer_appends (amount : float) (da ca cc d : string) (w : World) :
  exists r w',
    self w' = with_session (self w) (add_result (session (self w)) r) /\
    test_name r = "Transferência Interna - R$ " ++ format_f 2 amount /\
    exists v, test_internal_transfer env amount da ca cc d w = (inr v, w').
Proof. unfold test_internal_transfer. domain_operation. Qed.

(** When authenticate fails, the pipeline stops there: nothing else runs. *)
Lemma pipeline_halts_on_auth_failure (w w1 : World) :
  authenticate env w = (inr false, w1) ->
  run_pipeline_test env w = (inr tt, w1).
Proof.
  intros H. unfold run_pipeline_test, bind. rewrite H. reflexivity.
Qed.

(** When authenticate succeeds, the four later steps all run, whatever the
    earlier ones got: four results are appended, in step order. *)
Lemma pipeline_runs_every_step (w w1 : World) :
  authenticate env w = (inr true, w1) ->
  exists r1 r2 r3 r4 w',
    run_pipeline_test env w = (inr tt, w') /\
    results (session (self w')) =
      (results (session (self w1)) ++ [r1; r2; r3; r4])%list /\
    test_name r1 = "DICT Lookup - EMAIL" /\
    test_name r2 = "Pagamento PIX - R$ " ++ format_f 2 10.5%float /\
    test_name r3 = "Status PIX - 12345678..." /\
    test_name r4 = "TED Transfer - R$ " ++ format_f 2 100%float.
Proof.
  intros Hauth. unfold run_pipeline_test.
  rewrite (bind_returned _ _ _ _ _ Hauth). cbn [negb].
  destruct (test_pix_dict_lookup_appends "test@example.com" "EMAIL" w1)
    as (r1 & w2 & Hs1 & Hn1 & v1 & H1).
  rewrite (bind_returned _ _ _ _ _ H1).
  rewrite (bind_returned _ _ _ _ _ (eq_refl : uuid4 env w2 = (inr _, _))).
  match goal with
  | |- context [bind (test_pix_payment env ?a ?k ?kt ?cc ?d) _ ?w] =>
      destruct (test_pix_payment_appends a k kt cc d w) as (r2 & w3 & Hs2 & Hn2 & v2 & H2)
  end.
  rewrite (bind_returned _ _ _ _ _ H2).
  destruct (test_pix_status_appends "123456789" w3) as (r3 & w4 & Hs3 & Hn3 & v3 & H3).
  rewrite (bind_returned _ _ _ _ _ H3).
  rewrite (bind_returned _ _ _ _ _ (eq_refl : uuid4 env w4 = (inr _, _))).
  match goal with
  | |- context [bind (test_ted_transfer env ?a ?b ?ag ?ac ?n ?d ?cc) _ ?w] =>
      destruct (test_ted_transfer_appends a b ag ac n d cc w)
        as (r4 & w5 & Hs4 & Hn4 & v4 & H4)
  end.
  rewrite (bind_returned _ _ _ _ _ H4). unfold ret.
  exists r1, r2, r3, r4, w5.
  split; [reflexivity |].
  split; [| repeat split; assumption].
  rewrite Hs4. cbn. rewrite Hs3. cbn. rewrite Hs2. cbn. rewrite Hs1. cbn.
  rewrite <- !app_assoc. reflexivity.
Qed.

(** ** Report Generator *)

Lemma report_summary_empty (s : TestSession) :
  results s = [] -> report_summary s = inl division_by_zero.
Proof.
  intros H. unfold report_summary. rewrite H. reflexivity.
Qed.

Lemma report_summary_nonempty (s : TestSession) :
  results s <> [] -> exists txt, report_summary s = inr txt.
Proof.
  intros H. unfold report_summary.
  destruct (results s) as [| r rs]; [contradiction |].
  cbn [List.length int_truediv res_bind]. eexists; reflexivity.
Qed.

(** The aggregate-timing block never raises: its divisor is the length of
    a list the guard has just seen to be non-empty. *)
Lemma report_metrics_returns (s : TestSession) :
  exists txt, report_metrics s = inr txt.
Proof.
  unfold report_metrics.
  destruct (results s) as [| r rs]; [eexists; reflexivity |].
  cbn [List.length map float_div_len py_min py_max res_bind].
  eexists; reflexivity.
Qed.

(** The detail section can only raise the [TypeError] of formatting a
    missing execution time. *)
Lemma report_details_raises (rs : list TestResult) (i : nat) (e : pyexc) :
  report_details i rs = inl e -> exc_kind e = TypeError.
Proof.
  revert i. induction rs as [| r rs IH]; intros i; cbn [report_details].
  - discriminate.
  - unfold report_result.
    destruct (execution_time r); cbn [format_opt_f res_bind].
    + destruct (report_details (S i) rs) as [e' | rest] eqn:Hrest; cbn [res_bind].
      * intros H; inversion H; subst. eapply IH; eassumption.
      * discriminate.
    + intros H; inversion H; reflexivity.
Qed.

Lemma report_result_untimed (i : nat) (r : TestResult) :
  execution_time r = None ->
  exists e, report_result i r = inl e /\ exc_kind e = TypeError.
Proof.
  intros H. unfold report_result. rewrite H. eexists; split; reflexivity.
Qed.

(** C8: on a session with no results the aggregate-timing block renders
    nothing and raises nothing; on every session the block returns, so no
    division by the result count goes wrong in it. *)
Theorem report_metrics_omitted_when_empty :
  (forall (sid : string) (started : datetime) (ended : option datetime),
      report_metrics (mkTestSession sid started [] ended) = inr EmptyString) /\
  (forall s : TestSession, exists txt, report_metrics s = inr txt).
Proof.
  split; [reflexivity | exact report_metrics_returns].
Qed.

(** C9: the summary table divides by the result count without a guard:
    [generate_report] raises [ZeroDivisionError] exactly on a session with
    no results, and this is the summary section raising. *)
Theorem generate_report_divides_by_result_count (s : TestSession) (w : World) :
  (results s = [] <-> report_summary s = inl division_by_zero) /\
  (results s = [] <-> fst (generate_report env s w) = inl division_by_zero).
Proof.
  split; split.
  - apply report_summary_empty.
  - intros H. destruct (results s) as [| r rs] eqn:E; [reflexivity |].
    destruct (report_summary_nonempty s) as [txt Htxt]; [rewrite E; discriminate |].
    rewrite Htxt in H. discriminate H.
  - intros H. unfold generate_report, bind, lift.
    rewrite (report_summary_empty s H). reflexivity.
  - intros H. destruct (results s) as [| r rs] eqn:E; [reflexivity |].
    exfalso. revert H. unfold generate_report, bind, lift.
    destruct (report_summary_nonempty s) as [txt Htxt]; [rewrite E; discriminate |].
    rewrite Htxt, E.
    destruct (report_details 1 (r :: rs)) as [e | details] eqn:Hd.
    + apply report_details_raises in Hd. cbn [fst]. intros H; inversion H; subst e.
      discriminate Hd.
    + destruct (report_metrics_returns s) as [m Hm]. rewrite Hm.
      cbn. discriminate.
Qed.

End Properties.

(** * The harness on concrete worlds *)

Import Demo.

(** C1 at work: a POST answered 201 is a success. *)
Lemma make_request_success_iff_status_witness :
  exists r w',
    _make_request (scripted [Responded accepted]) "POST" (c_url lookup)
      (c_payload lookup) PNone "DICT Lookup - EMAIL" world0 = (inr r, w') /\
    response_status r = Some 201%Z /\
    (success r = true <-> (201 = 200 \/ 201 = 201 \/ 201 = 202)%Z).
Proof.
  apply (make_request_success_iff_status (scripted [Responded accepted])
           "POST" (c_url lookup) (c_payload lookup) PNone "DICT Lookup - EMAIL"
           world0 (lookup_request bare_headers) accepted);
    reflexivity.
Defined.

(** C6 at work: a 502 with a plain-text body. *)
Lemma make_request_raw_body_fallback_witness :
  exists r w',
    _make_request (scripted [Responded bad_gateway]) "POST" (c_url lookup)
      (c_payload lookup) PNone "DICT Lookup - EMAIL" world0 = (inr r, w') /\
    response_body r = PDict [("raw_response", PStr "Bad Gateway")] /\
    success r = success_status 502.
Proof.
  apply (make_request_raw_body_fallback (scripted [Responded bad_gateway])
           "POST" (c_url lookup) (c_payload lookup) PNone "DICT Lookup - EMAIL"
           world0 (lookup_request bare_headers) bad_gateway);
    reflexivity.
Defined.

(** C3, where the code falls short: a 401 whose body is not JSON, and a
    refused connection.  Authenticate returns failure and keeps the token,
    but the session gets no result. *)
Theorem authenticate_failure_goes_unrecorded :
  (exists w',
      authenticate (scripted [Responded unauthorized_text]) world0 = (inr false, w') /\
      access_token (self w') = PNone /\
      results (session (self w')) = []) /\
  (exists w',
      authenticate (scripted []) world0 = (inr false, w') /\
      access_token (self w') = PNone /\
      results (session (self w')) = []).
Proof.
  split; eexists; (split; [reflexivity |]); split; reflexivity.
Qed.

(** The sibling path: the Executor records a refused connection. *)
Example make_request_records_transport_failure :
  map success (results (session (self (snd (invoke (scripted []) lookup world0)))))
  = [false] /\
  map error_message (results (session (self (snd (invoke (scripted []) lookup world0)))))
  = [Some "Connection refused"].
Proof. split; reflexivity. Qed.

(** C4, the claim as stated fails: a second [finish] moves the end time. *)
Lemma finish_twice_moves_end_time :
  end_time (finish (session tester) noon) = Some noon /\
  end_time (finish (finish (session tester) noon) later) = Some later /\
  end_time (finish (finish (session tester) noon) later)
    <> end_time (finish (session tester) noon).
Proof.
  split; [reflexivity |]. split; [reflexivity |]. cbn. discriminate.
Qed.

(** C5, the claim as stated fails: the body has an [access_token] entry,
    the empty string; authenticate returns success and stores it, and the
    Executor call that follows goes out with the content-type header
    alone. *)
Lemma empty_token_sends_no_authorization :
  py_get (token_body (PStr EmptyString)) "access_token" = inr (PStr EmptyString) /\
  fst (authenticate (scripted [Responded (token_granted (PStr EmptyString))]) world0)
  = inr true /\
  access_token
    (self (snd (authenticate (scripted [Responded (token_granted (PStr EmptyString))])
                  world0)))
  = PStr EmptyString /\
  executor_headers_of
    (sent (snd (run_ops (scripted [Responded (token_granted (PStr EmptyString));
                                   Responded accepted])
                  [Authenticate; Invoke lookup] world0)))
  = [[("Content-Type", "application/json")]].
Proof. repeat split; reflexivity. Qed.

(** C5 at work: the token [tok] is stored and sent. *)
Lemma authenticate_stores_token_witness :
  exists r w1,
    authenticate (scripted [Responded (token_granted (PStr "tok"))]) world0
    = (inr true, w1) /\
    access_token (self w1) = PStr "tok" /\
    results (session (self w1)) = (results (session (self world0)) ++ [r])%list /\
    success r = true /\
    (exists expires_in,
        response_body r = PDict [("access_token", PStr "***");
                                 ("expires_in", expires_in)]) /\
    forall os : list op,
    exists rs w2 new,
      run_ops (scripted [Responded (token_granted (PStr "tok"))]) os w1 = (inr rs, w2) /\
      sent w2 = (sent w1 ++ new)%list /\
      (no_auth_success rs = true ->
       truthy (PStr "tok") = true ->
       access_token (self w2) = PStr "tok" /\
       map rq_headers new
       = flat_map (headers_sent [("Authorization", "Bearer tok");
                                 ("Content-Type", "application/json")]) os /\
       Forall (eq [("Authorization", "Bearer tok");
                   ("Content-Type", "application/json")])
         (executor_headers_of new) /\
       forall c : call,
         supported c = true ->
         exists rq,
           sent (snd (invoke (scripted [Responded (token_granted (PStr "tok"))]) c w2))
           = (sent w2 ++ [rq])%list /\
           rq_url rq = c_url c /\
           rq_headers rq = Some [("Authorization", "Bearer tok");
                                 ("Content-Type", "application/json")]).
Proof.
  apply (authenticate_stores_token (scripted [Responded (token_granted (PStr "tok"))])
           world0 (token_granted (PStr "tok"))
           [("access_token", PStr "tok"); ("expires_in", PInt 3600)] (PStr "tok"));
    reflexivity.
Defined.

(** C10, the claim as stated fails twice over.  A 200 whose JSON body is
    a list has no [access_token] field, yet authenticate returns failure
    and records nothing; and after a 200 with the empty object, a later
    authenticate that is granted a token puts the bearer header back on
    the next Executor call. *)
Lemma non_object_body_is_no_success :
  resp_json (json_response 200 (PList [PStr "tok"])) = Some (PList [PStr "tok"]) /\
  fst (authenticate (scripted [Responded (json_response 200 (PList [PStr "tok"]))])
         world0)
  = inr false /\
  results (session (self (snd (authenticate
     (scripted [Responded (json_response 200 (PList [PStr "tok"]))]) world0))))
  = [] /\
  fst (authenticate (scripted [Responded (json_response 200 (PDict []))]) world0)
  = inr true /\
  executor_headers_of
    (sent (snd (run_ops (scripted [Responded (json_response 200 (PDict []));
                                   Responded (token_granted (PStr "tok"));
                                   Responded accepted])
                  [Authenticate; Authenticate; Invoke lookup] world0)))
  = [[("Authorization", "Bearer tok"); ("Content-Type", "application/json")]].
Proof. repeat split; reflexivity. Qed.

(** C10 at work: a 200 whose body is the empty object. *)
Lemma authenticate_without_token_field_witness :
  exists r w1,
    authenticate (scripted [Responded (json_response 200 (PDict []))]) world0
    = (inr true, w1) /\
    access_token (self w1) = PNone /\
    results (session (self w1)) = (results (session (self world0)) ++ [r])%list /\
    success r = true /\
    forall os : list op,
    exists rs w2 new,
      run_ops (scripted [Responded (json_response 200 (PDict []))]) os w1
      = (inr rs, w2) /\
      sent w2 = (sent w1 ++ new)%list /\
      (no_auth_success rs = true ->
       access_token (self w2) = PNone /\
       map rq_headers new
       = flat_map (headers_sent [("Content-Type", "application/json")]) os /\
       Forall (eq [("Content-Type", "application/json")]) (executor_headers_of new) /\
       forall c : call,
         supported c = true ->
         exists rq,
           sent (snd (invoke (scripted [Responded (json_response 200 (PDict []))]) c w2))
           = (sent w2 ++ [rq])%list /\
           rq_url rq = c_url c /\
           rq_headers rq = Some [("Content-Type", "application/json")]).
Proof.
  apply (authenticate_without_token_field
           (scripted [Responded (json_response 200 (PDict []))])
           world0 (json_response 200 (PDict [])) []);
    reflexivity.
Defined.

(** C7, where the code falls short: pipeline mode on a fresh tester, the
    token endpoint answers 401 with a body that is not JSON.  The pipeline
    stops after the one request, but the session holds no result. *)
Theorem pipeline_halts_with_empty_session :
  exists w',
    run_pipeline_test (scripted [Responded unauthorized_text]) world0 = (inr tt, w') /\
    List.length (sent w') = 1%nat /\
    results (session (self w')) = [].
Proof.
  eexists; (split; [reflexivity |]); split; reflexivity.
Qed.

(** The scenario of the claim, with a JSON body: one failed result whose
    message carries the status. *)
Example pipeline_halts_with_one_result :
  exists r w',
    run_pipeline_test (scripted [Responded unauthorized_json]) world0 = (inr tt, w') /\
    List.length (sent w') = 1%nat /\
    results (session (self w')) = [r] /\
    success r = false /\
    error_message r = Some "Erro na autenticação: 401" /\
    PyStr.contains "401" "Erro na autenticação: 401" = true.
Proof.
  eexists; eexists; (split; [reflexivity |]); repeat split.
Qed.

(** A full pipeline: the token is granted, the lookup is refused by the
    network, the payment gets a 502, the status query and the transfer are
    accepted; all five results are there, in order. *)
Example pipeline_continues_after_failed_steps :
  map success (results (session (self (snd (run_pipeline_test mixed_answers world0)))))
  = [true; false; false; true; true] /\
  map response_status
    (results (session (self (snd (run_pipeline_test mixed_answers world0)))))
  = [Some 200; None; Some 502; Some 201; Some 201]%Z /\
  map error_message
    (results (session (self (snd (run_pipeline_test mixed_answers world0)))))
  = [None; Some "Connection refused"; Some "HTTP 502: Bad Gateway"; None; None] /\
  executor_headers_of (sent (snd (run_pipeline_test mixed_answers world0)))
  = repeat [("Authorization", "Bearer tok"); ("Content-Type", "application/json")] 4.
Proof. repeat split; reflexivity. Qed.

(** Mode 2 of [main] after the unrecorded authentication failure: the
    session is finished, the report divides by the empty result count and
    no file is written. *)
Example main_pipeline_writes_no_report :
  fst (main_pipeline (scripted [Responded unauthorized_text]) world0) = inr tt /\
  List.length
    (results (session (self (snd (main_pipeline (scripted [Responded unauthorized_text])
                                    world0))))) = 0%nat /\
  fst (generate_report (scripted [])
         (finish (session tester) noon) world0) = inl division_by_zero /\
  List.length (files (snd (main_pipeline (scripted [Responded unauthorized_text])
                             world0))) = 0%nat.
Proof. repeat split; reflexivity. Qed.

(** The first scenario of the spec: a granted token, then a lookup answered
    200.  Two results, both successful, and the lookup carried the token. *)
Example token_then_lookup :
  map success
    (results (session (self (snd (run_ops
       (scripted [Responded (token_granted (PStr "tok"));
                  Responded (json_response 200 (PDict []))])
       [Authenticate; Invoke lookup] world0)))))
  = [true; true] /\
  executor_headers_of
    (sent (snd (run_ops
       (scripted [Responded (token_granted (PStr "tok"));
                  Responded (json_response 200 (PDict []))])
       [Authenticate; Invoke lookup] world0)))
  = [[("Authorization", "Bearer tok"); ("Content-Type", "application/json")]].
Proof. split; reflexivity. Qed.

(** The transfer scenario: HTTP 500 with an error body. *)
Example ted_transfer_insufficient_funds :
  map success (results (session (self (snd (test_ted_transfer
     (scripted [Responded insufficient_funds])
     100%float "001" "1234" "12345-6" "João Silva" "12345678901" "TED_1" world0)))))
  = [false] /\
  map error_message (results (session (self (snd (test_ted_transfer
     (scripted [Responded insufficient_funds])
     100%float "001" "1234" "12345-6" "João Silva" "12345678901" "TED_1" world0)))))
  = [Some ("HTTP 500: " ++ text insufficient_funds)] /\
  fst (test_ted_transfer
     (scripted [Responded insufficient_funds])
     100%float "001" "1234" "12345-6" "João Silva" "12345678901" "TED_1" world0)
  = inr PNone.
Proof. repeat split; reflexivity. Qed.

(** A result that authenticate recorded has no execution time, so the
    detail section of the report raises on it: after a pipeline whose
    authentication succeeded, mode 2 of [main] writes no file either. *)
Example main_pipeline_report_raises_on_untimed_result :
  map execution_time
    (results (session (self (snd (authenticate
       (scripted [Responded (token_granted (PStr "tok"))]) world0)))))
  = [None] /\
  List.length (results (session (self (snd (main_pipeline mixed_answers world0)))))
  = 5%nat /\
  List.length (files (snd (main_pipeline mixed_answers world0))) = 0%nat.
Proof. repeat split; reflexivity. Qed.
